(** * uProtocol Python SDK: URI validation and the in-memory RPC server

    A shallow embedding of

    - [org_eclipse_uprotocol/uri/validator/urivalidator.py]
      (class [UriValidator]), and
    - [uprotocol/communication/inmemoryrpcserver.py]
      (classes [HandleRequestListener] and [InMemoryRpcServer]),

    followed by the properties of the specification that concern them.

    Python objects that the two files only use (statuses, URIs, messages,
    the message builder, the transport, the request handlers) are declared
    elsewhere in the SDK.  Plain data is given as records; behaviour that
    the files call but do not define is a parameter of the enclosing
    section, so every statement holds for all transports and all handlers. *)

From Stdlib Require Import String Ascii NArith List Bool.
From stdpp Require Import base option countable gmap strings.

Local Open Scope string_scope.

(** ** Status codes and statuses ([ucode_pb2], [ustatus_pb2]) *)

Inductive UCode : Type :=
| OK | CANCELLED | UNKNOWN | INVALID_ARGUMENT | DEADLINE_EXCEEDED
| NOT_FOUND | ALREADY_EXISTS | PERMISSION_DENIED | UNAUTHENTICATED
| RESOURCE_EXHAUSTED | FAILED_PRECONDITION | ABORTED | OUT_OF_RANGE
| UNIMPLEMENTED | INTERNAL | UNAVAILABLE | DATA_LOSS.

#[global] Instance UCode_eq_dec : EqDecision UCode.
Proof. solve_decision. Defined.

Record UStatus : Type := mkUStatus { code : UCode; message : string }.

#[global] Instance UStatus_eq_dec : EqDecision UStatus.
Proof. solve_decision. Defined.

(** ** Exceptions and results

    The instances of Python's [Exception] that the two files raise, catch
    or inspect.  [ValueError] and [UStatusError] are raised by the server
    itself; [OtherException] stands for any further [Exception] a
    collaborator raises and carries its [str(e)].  Signals that are not
    instances of [Exception] ([KeyboardInterrupt], [SystemExit]) are not
    caught by any handler of the files and are outside the model. *)

Inductive PyException : Type :=
| ValueError (msg : string)
| UStatusError (status : UStatus)
| OtherException (str : string).

(** [UStatusError.from_code_message(code, message)] *)
Definition from_code_message (c : UCode) (m : string) : PyException :=
  UStatusError (mkUStatus c m).

(** [isinstance(e, UStatusError)] *)
Definition is_UStatusError (e : PyException) : bool :=
  match e with UStatusError _ => true | _ => false end.

(** [str(e)] for the exceptions that reach [except Exception]. *)
Definition str (e : PyException) : string :=
  match e with
  | ValueError m => m
  | UStatusError st => message st
  | OtherException s => s
  end.

(** The outcome of a call: a returned value or a raised exception. *)
Inductive Result (A : Type) : Type :=
| Returned (a : A)
| Raised (e : PyException).
Arguments Returned {A} a.
Arguments Raised {A} e.

(** ** Addresses and messages ([uri_pb2], [uattributes_pb2], [umessage_pb2]) *)

Record UUri : Type := mkUUri {
  authority_name : string;
  ue_id : N;
  ue_version_major : N;
  resource_id : N
}.

#[global] Instance UUri_eq_dec : EqDecision UUri.
Proof. solve_decision. Defined.

#[global] Instance UUri_countable : Countable UUri.
Proof.
  refine (inj_countable'
    (fun u => (authority_name u, ue_id u, ue_version_major u, resource_id u))
    (fun t => let '(a, e, v, r) := t in mkUUri a e v r) _).
  intros []; reflexivity.
Defined.

Record UUID : Type := mkUUID { msb : N; lsb : N }.

#[global] Instance UUID_eq_dec : EqDecision UUID.
Proof. solve_decision. Defined.

Inductive UMessageType : Type :=
| UMESSAGE_TYPE_UNSPECIFIED
| UMESSAGE_TYPE_PUBLISH
| UMESSAGE_TYPE_REQUEST
| UMESSAGE_TYPE_RESPONSE
| UMESSAGE_TYPE_NOTIFICATION.

#[global] Instance UMessageType_eq_dec : EqDecision UMessageType.
Proof. solve_decision. Defined.

Record UAttributes : Type := mkUAttributes {
  id : UUID;
  type : UMessageType;
  source : UUri;
  sink : UUri;
  commstatus : option UCode
}.

(** A payload is a sequence of bytes; [None] is Python's [None]. *)
Definition UPayload : Type := list Byte.byte.

Record UMessage : Type := mkUMessage {
  attributes : UAttributes;
  payload : option UPayload
}.

(** ** Python's [str.strip()]

    A [string] is read as a sequence of code points below 256.  On that
    range [str.isspace] holds of TAB, LF, VT, FF, CR, the separators
    FS, GS, RS, US, the space, NEL (0x85) and the no-break space (0xA0). *)

Definition isspace (c : ascii) : bool :=
  let n := N_of_ascii c in
  ((9 <=? n) && (n <=? 13) || (28 <=? n) && (n <=? 32)
   || (n =? 133) || (n =? 160))%N.

Fixpoint lstrip (s : string) : string :=
  match s with
  | EmptyString => EmptyString
  | String c s' => if isspace c then lstrip s' else s
  end.

Fixpoint rstrip (s : string) : string :=
  match s with
  | EmptyString => EmptyString
  | String c s' =>
      match rstrip s' with
      | EmptyString => if isspace c then EmptyString else String c EmptyString
      | r => String c r
      end
  end.

Definition strip (s : string) : string := rstrip (lstrip s).

(** Every character of the string is white space (so is the empty string). *)
Fixpoint blank (s : string) : bool :=
  match s with
  | EmptyString => true
  | String c s' => isspace c && blank s'
  end.

(** ** The URI validator ([urivalidator.py]) *)

Module UriValidator.

(** The address model of [org_eclipse_uprotocol.uri.datamodel]: the classes
    are not part of the embedded files; only their fields are used. *)

Record UAuthority : Type := mkUAuthority {
  device : option string;
  domain : option string
}.

Record UEntity : Type := mkUEntity {
  name : string;
  version : option string
}.

Record UResource : Type := mkUResource {
  resource_name : string;
  instance : option string;
  resource_message : option string
}.

Record UUri : Type := mkUUri {
  get_u_authority : UAuthority;
  get_u_entity : UEntity;
  get_u_resource : UResource
}.

(** Modelled from the spec: [UStatus.ok()] of
    [org_eclipse_uprotocol.transport.datamodel.ustatus], which is not among
    the embedded files.  The spec: a status is a code and a message, and
    [code = OK] iff the operation succeeded. *)
Definition ok : UStatus := mkUStatus OK "ok".

(** Modelled from the spec: [UStatus.failed_with_msg_and_code(msg, code)],
    a status built from the given message and code. *)
Definition failed_with_msg_and_code (msg : string) (c : UCode) : UStatus :=
  mkUStatus c msg.

(** Modelled from the spec: [UStatus.isFailed()], the negation of
    [code = OK]. *)
Definition isFailed (st : UStatus) : bool :=
  negb (bool_decide (code st = OK)).

Section Validator.

(** [UUri.is_empty()], [UResource.is_rpc_method()] and
    [UResource.for_rpc_response()] are defined with the address model,
    outside the embedded files: they are parameters here. *)
Variable is_empty : UUri -> bool.
Variable is_rpc_method : UResource -> bool.
Variable for_rpc_response : UResource.

Definition validate (uri : UUri) : UStatus :=
  if is_empty uri then
    failed_with_msg_and_code "Uri is empty." INVALID_ARGUMENT
  else if String.eqb (strip (name (get_u_entity uri))) "" then
    failed_with_msg_and_code "Uri is missing uSoftware Entity name."
                             INVALID_ARGUMENT
  else ok.

Definition validate_rpc_method (uri : UUri) : UStatus :=
  let status := validate uri in
  if isFailed status then status
  else
    let u_resource := get_u_resource uri in
    if negb (is_rpc_method u_resource) then
      failed_with_msg_and_code
        "Invalid RPC method uri. Uri should be the method to be called, or method from response."
        INVALID_ARGUMENT
    else ok.

Definition validate_rpc_response (uri : UUri) : UStatus :=
  let status := validate uri in
  if isFailed status then status
  else
    let u_resource := get_u_resource uri in
    if negb (is_rpc_method u_resource
             && bool_decide (instance u_resource = instance for_rpc_response))
    then failed_with_msg_and_code "Invalid RPC response type." INVALID_ARGUMENT
    else ok.

End Validator.

(** *** A concrete address model, for evaluation *)

(** Modelled from the spec: [UUri.is_empty()].  The spec: an address is
    empty iff all its fields are at their default value. *)
Definition is_empty (uri : UUri) : bool :=
  bool_decide (device (get_u_authority uri) = None)
  && bool_decide (domain (get_u_authority uri) = None)
  && String.eqb (name (get_u_entity uri)) ""
  && bool_decide (version (get_u_entity uri) = None)
  && String.eqb (resource_name (get_u_resource uri)) ""
  && bool_decide (instance (get_u_resource uri) = None)
  && bool_decide (resource_message (get_u_resource uri) = None).

(** Modelled from the spec: [UResource.is_rpc_method()].  The spec: a
    resource identifies a method, a topic, or the reserved response
    resource; the response resource is a method resource that carries the
    one reserved instance value.  The model marks method resources by the
    resource name [rpc]. *)
Definition is_rpc_method (r : UResource) : bool :=
  String.eqb (resource_name r) "rpc".

(** Modelled from the spec: [UResource.for_rpc_response()], the resource
    that carries the reserved response instance. *)
Definition for_rpc_response : UResource :=
  mkUResource "rpc" (Some "response") None.

(** [UResource.for_rpc_request(method)]-style method resource and a topic,
    used as sample inputs. *)
Definition rpc_resource (method : string) : UResource :=
  mkUResource "rpc" (Some method) None.

Definition topic_resource : UResource :=
  mkUResource "door" (Some "front_left") (Some "Door").

Definition local_uri (entity : string) (r : UResource) : UUri :=
  mkUUri (mkUAuthority None None) (mkUEntity entity None) r.

Definition empty_uri : UUri :=
  mkUUri (mkUAuthority None None) (mkUEntity "" None) (mkUResource "" None None).

End UriValidator.

(** ** The message builder ([UMessageBuilder]) and [UriFactory.ANY] *)

Record UMessageBuilder : Type := mkUMessageBuilder {
  builder_id : UUID;
  builder_type : UMessageType;
  builder_source : UUri;
  builder_sink : UUri;
  builder_commstatus : option UCode
}.

(** Modelled from the spec: [UMessageBuilder.response_for_request], of
    [uprotocol.transport.builder.umessagebuilder], which is not among the
    embedded files.  The spec: the response is correlated to the request's
    attributes by the shared id and by swapping source and sink. *)
Definition response_for_request (request : UAttributes) : UMessageBuilder :=
  {| builder_id := id request;
     builder_type := UMESSAGE_TYPE_RESPONSE;
     builder_source := sink request;
     builder_sink := source request;
     builder_commstatus := None |}.

(** Modelled from the spec: [UMessageBuilder.with_comm_status(code)], which
    marks the message under construction with a comm-status code. *)
Definition with_comm_status (c : UCode) (b : UMessageBuilder) : UMessageBuilder :=
  {| builder_id := builder_id b;
     builder_type := builder_type b;
     builder_source := builder_source b;
     builder_sink := builder_sink b;
     builder_commstatus := Some c |}.

(** Modelled from the spec: [UMessageBuilder.build(payload)], the message
    with the attributes collected so far and the given payload. *)
Definition build (b : UMessageBuilder) (p : option UPayload) : UMessage :=
  {| attributes :=
       {| id := builder_id b;
          type := builder_type b;
          source := builder_source b;
          sink := builder_sink b;
          commstatus := builder_commstatus b |};
     payload := p |}.

(** Modelled from the spec: [UriFactory.ANY], the constant address that
    stands for any source when a listener is registered. *)
Definition ANY : UUri := mkUUri "*" 65535 255 65535.

(** ** Collaborators of the server

    [W] is the state of everything outside the server (the transport, the
    handlers, the application).  A call to a collaborator reads and changes
    that state and returns or raises.  The collaborators hold no reference
    to the server's registry: only the server reads and writes it. *)

(** [uprotocol.transport.utransport.UTransport].  The source address of a
    transport is fixed, so [get_source] is a constant.  The listener passed
    to [register_listener] and [unregister_listener] is always the server's
    one [HandleRequestListener] and is left out of the signatures. *)
Class UTransport (W : Type) : Type := {
  get_source : UUri;
  send : UMessage -> W -> W * Result UStatus;
  register_listener : UUri -> UUri -> W -> W * Result UStatus;
  unregister_listener : UUri -> UUri -> W -> W * Result UStatus
}.

(** [uprotocol.communication.requesthandler.RequestHandler].  [Handler] is
    the type of handler objects; Python's [==] on them is the decidable
    equality of the type. *)
Class RequestHandler (W Handler : Type) : Type := {
  handle_request : Handler -> UMessage -> W -> W * Result (option UPayload)
}.

(** The calls the server makes to its collaborators, in order. *)
Inductive Call (Handler : Type) : Type :=
| call_handle_request (h : Handler) (request : UMessage)
| call_send (m : UMessage)
| call_register_listener (source_filter sink_filter : UUri)
| call_unregister_listener (source_filter sink_filter : UUri).
Arguments call_handle_request {Handler} h request.
Arguments call_send {Handler} m.
Arguments call_register_listener {Handler} source_filter sink_filter.
Arguments call_unregister_listener {Handler} source_filter sink_filter.

(** ** The in-memory RPC server ([inmemoryrpcserver.py]) *)

Module InMemoryRpcServer.

(** The state the methods run in: the outside world, the dictionary
    [self.request_handlers] (shared by the server and its listener; a
    value [None] is Python's [None]) and the trace of calls made so far. *)
Record State (W Handler : Type) : Type := mkState {
  world : W;
  request_handlers : gmap UUri (option Handler);
  calls : list (Call Handler)
}.
Arguments mkState {W Handler} world request_handlers calls.
Arguments world {W Handler} s.
Arguments request_handlers {W Handler} s.
Arguments calls {W Handler} s.

Section Server.

Context {W Handler : Type}.
Context `{HEq : !EqDecision Handler, HT : !UTransport W,
          HR : !RequestHandler W Handler}.

(** A method body: it transforms the state and returns or raises.  State
    changes made before an exception persist, as in Python. *)
Definition M (A : Type) : Type := State W Handler -> State W Handler * Result A.

Definition ret {A} (a : A) : M A := fun s => (s, Returned a).

Definition raise {A} (e : PyException) : M A := fun s => (s, Raised e).

Definition bind {A B} (m : M A) (k : A -> M B) : M B :=
  fun s =>
    match m s with
    | (s', Returned a) => k a s'
    | (s', Raised e) => (s', Raised e)
    end.

(** [try: body except Exception as e: handler(e)] *)
Definition try_except {A} (body : M A) (handler : PyException -> M A) : M A :=
  fun s =>
    match body s with
    | (s', Returned a) => (s', Returned a)
    | (s', Raised e) => handler e s'
    end.

Notation "x <- m ;; k" := (bind m (fun x => k))
  (at level 100, m at next level, right associativity).
Notation "m ;;; k" := (bind m (fun _ => k))
  (at level 100, right associativity).

(** *** Dictionary operations on [self.request_handlers] *)

Definition update_handlers (f : gmap UUri (option Handler) -> gmap UUri (option Handler))
  : M unit :=
  fun s => (mkState (world s) (f (request_handlers s)) (calls s), Returned tt).

(** [d.pop(key, None)]: the stored value, or [None] when the key is absent;
    the key is removed. *)
Definition dict_pop (key : UUri) : M (option Handler) :=
  fun s =>
    let v := match request_handlers s !! key with
             | Some v => v
             | None => None
             end in
    (mkState (world s) (delete key (request_handlers s)) (calls s), Returned v).

(** [key in d] *)
Definition dict_contains (key : UUri) : M bool :=
  fun s => (s, Returned (bool_decide (is_Some (request_handlers s !! key)))).

(** [d[key]], which raises [KeyError] when the key is absent. *)
Definition dict_getitem (key : UUri) : M (option Handler) :=
  fun s =>
    match request_handlers s !! key with
    | Some v => (s, Returned v)
    | None => (s, Raised (OtherException "KeyError"))
    end.

(** [d[key] = value] *)
Definition dict_setitem (key : UUri) (value : option Handler) : M unit :=
  update_handlers (insert key value).

(** [d.get(key)]: the stored value, or [None] when the key is absent. *)
Definition dict_get (key : UUri) : M (option Handler) :=
  fun s =>
    (s, Returned match request_handlers s !! key with
                 | Some v => v
                 | None => None
                 end).

(** [del d[key]], which raises [KeyError] when the key is absent. *)
Definition dict_delitem (key : UUri) : M unit :=
  fun s =>
    match request_handlers s !! key with
    | Some _ => (mkState (world s) (delete key (request_handlers s)) (calls s),
                 Returned tt)
    | None => (s, Raised (OtherException "KeyError"))
    end.

(** *** Calls to the collaborators, each recorded in the trace *)

Definition external {A} (c : Call Handler) (f : W -> W * Result A) : M A :=
  fun s =>
    let '(w', r) := f (world s) in
    (mkState w' (request_handlers s) (calls s ++ [c]), r).

Definition call_handler (handler : Handler) (request : UMessage)
  : M (option UPayload) :=
  external (call_handle_request handler request) (handle_request handler request).

Definition transport_send (m : UMessage) : M UStatus :=
  external (call_send m) (send m).

Definition transport_register_listener (source_filter sink_filter : UUri)
  : M UStatus :=
  external (call_register_listener source_filter sink_filter)
           (register_listener source_filter sink_filter).

Definition transport_unregister_listener (source_filter sink_filter : UUri)
  : M UStatus :=
  external (call_unregister_listener source_filter sink_filter)
           (unregister_listener source_filter sink_filter).

(** *** [HandleRequestListener.on_receive] *)

Definition on_receive (request : UMessage) : M unit :=
  if negb (bool_decide (type (attributes request) = UMESSAGE_TYPE_REQUEST))
  then ret tt
  else
    let request_attributes := attributes request in
    handler <- dict_pop (sink request_attributes) ;;
    match handler with
    | None => ret tt
    | Some handler =>
        let response_builder := response_for_request request_attributes in
        r <- try_except
               (response_payload <- call_handler handler request ;;
                ret (response_builder, response_payload))
               (fun e =>
                  let code0 := INTERNAL in
                  let response_payload := None in
                  let code1 :=
                    match e with
                    | UStatusError status => code status
                    | _ => code0
                    end in
                  ret (with_comm_status code1 response_builder, response_payload)) ;;
        (transport_send (build (fst r) (snd r)) ;;; ret tt)
    end.

(** *** [InMemoryRpcServer.register_request_handler] *)

(** The method URI belongs to the address space of the transport's source. *)
Definition matches_source (method_uri : UUri) : Prop :=
  authority_name method_uri = authority_name get_source
  /\ ue_id method_uri = ue_id get_source
  /\ ue_version_major method_uri = ue_version_major get_source.

(** The test shared by registration and unregistration: the method URI does
    not match the transport's source URI. *)
Definition source_mismatch (method_uri : UUri) : bool :=
  negb (String.eqb (authority_name method_uri) (authority_name get_source))
  || negb (N.eqb (ue_id method_uri) (ue_id get_source))
  || negb (N.eqb (ue_version_major method_uri) (ue_version_major get_source)).

Definition register_request_handler
  (method_uri : option UUri) (handler : option Handler) : M UStatus :=
  match method_uri with
  | None => raise (ValueError "Method URI missing")
  | Some method_uri =>
  match handler with
  | None => raise (ValueError "Request listener missing")
  | Some handler =>
    if source_mismatch method_uri then
      raise (from_code_message INVALID_ARGUMENT
               "Method URI does not match the transport source URI")
    else
      try_except
        (present <- dict_contains method_uri ;;
         (if present : bool then
            current_handler <- dict_getitem method_uri ;;
            match current_handler with
            | Some _ =>
                raise (from_code_message ALREADY_EXISTS "Handler already registered")
            | None => ret tt
            end
          else ret tt) ;;;
         result <- transport_register_listener ANY method_uri ;;
         if negb (bool_decide (code result = OK)) then
           raise (from_code_message (code result) (message result))
         else
           (dict_setitem method_uri (Some handler) ;;;
            ret (mkUStatus OK "")))
        (fun e =>
           match e with
           | UStatusError status =>
               ret (mkUStatus (code status) (message status))
           | _ => ret (mkUStatus INTERNAL (str e))
           end)
  end
  end.

(** *** [InMemoryRpcServer.unregister_request_handler] *)

Definition unregister_request_handler
  (method_uri : option UUri) (handler : option Handler) : M UStatus :=
  match method_uri with
  | None => raise (ValueError "Method URI missing")
  | Some method_uri =>
  match handler with
  | None => raise (ValueError "Request listener missing")
  | Some handler =>
    if source_mismatch method_uri then
      raise (from_code_message INVALID_ARGUMENT
               "Method URI does not match the transport source URI")
    else
      current <- dict_get method_uri ;;
      if bool_decide (current = Some handler) then
        (dict_delitem method_uri ;;;
         transport_unregister_listener ANY method_uri)
      else ret (mkUStatus NOT_FOUND "")
  end
  end.

End Server.

(** The state of a freshly constructed server: [self.request_handlers = {}]. *)
Definition init {W Handler : Type} (w : W) : State W Handler :=
  mkState w ∅ [].

(** The response [on_receive] builds for a request once the handler has
    returned or raised: the payload, or no payload and a comm-status. *)
Definition response_of (request : UMessage) (outcome : Result (option UPayload))
  : UMessage :=
  match outcome with
  | Returned response_payload =>
      build (response_for_request (attributes request)) response_payload
  | Raised e =>
      build (with_comm_status
               (match e with UStatusError status => code status | _ => INTERNAL end)
               (response_for_request (attributes request))) None
  end.

Section Lifecycle.

Context {W Handler : Type}.
Context `{HEq : !EqDecision Handler, HT : !UTransport W,
          HR : !RequestHandler W Handler}.

(** *** Histories of a server

    What can happen to a server once constructed ([init]): the application calls
    one of the two registration methods, the transport delivers a message
    to the listener, or the world outside moves on.  An exception raised
    by a call is the caller's to handle; the state it leaves is the state
    the next call finds. *)
Inductive Op : Type :=
| op_register (method_uri : option UUri) (handler : option Handler)
| op_unregister (method_uri : option UUri) (handler : option Handler)
| op_receive (request : UMessage)
| op_outside (w : W).

Definition step (s : State W Handler) (o : Op) : State W Handler :=
  match o with
  | op_register method_uri handler =>
      (register_request_handler method_uri handler s).1
  | op_unregister method_uri handler =>
      (unregister_request_handler method_uri handler s).1
  | op_receive request => (on_receive request s).1
  | op_outside w => mkState w (request_handlers s) (calls s)
  end.

Definition run (ops : list Op) (s : State W Handler) : State W Handler :=
  fold_left step ops s.

(** Every entry of the dictionary is a handler stored under a method URI
    of the transport's own address space. *)
Definition registry_invariant (s : State W Handler) : Prop :=
  forall key v,
    request_handlers s !! key = Some v ->
    matches_source key /\ exists h, v = Some h.

End Lifecycle.

End InMemoryRpcServer.

(** ** Sample collaborators, for evaluation *)

Module Samples.

(** Three handler objects: one returns the request's payload, one fails
    with a protocol status, one fails with some other exception. *)
Inductive Handler : Type := echo | rejecting | crashing.

#[global] Instance Handler_eq_dec : EqDecision Handler.
Proof. solve_decision. Defined.

(** The outside world counts the calls it has served. *)
#[global] Instance sample_handlers : RequestHandler nat Handler := {
  handle_request h request w :=
    match h with
    | echo => (S w, Returned (payload request))
    | rejecting => (S w, Raised (from_code_message INVALID_ARGUMENT "bad"))
    | crashing => (S w, Raised (OtherException "boom"))
    end
}.

Definition transport_source : UUri := mkUUri "vehicle" 7 1 0.

(** A transport on which every operation succeeds. *)
Definition ok_transport : UTransport nat := {|
  get_source := transport_source;
  send _ w := (S w, Returned (mkUStatus OK ""));
  register_listener _ _ w := (S w, Returned (mkUStatus OK ""));
  unregister_listener _ _ w := (S w, Returned (mkUStatus OK ""))
|}.

(** A transport that reports a failure status for listener registration. *)
Definition refusing_transport : UTransport nat := {|
  get_source := transport_source;
  send _ w := (S w, Returned (mkUStatus OK ""));
  register_listener _ _ w := (S w, Returned (mkUStatus UNAVAILABLE "bus down"));
  unregister_listener _ _ w := (S w, Returned (mkUStatus OK ""))
|}.

(** A transport whose listener registration raises. *)
Definition raising_transport : UTransport nat := {|
  get_source := transport_source;
  send _ w := (S w, Returned (mkUStatus OK ""));
  register_listener _ _ w := (S w, Raised (OtherException "socket closed"));
  unregister_listener _ _ w := (S w, Returned (mkUStatus OK ""))
|}.

(** A method of the transport's own entity, and one of another entity. *)
Definition method_uri : UUri := mkUUri "vehicle" 7 1 3.
Definition foreign_uri : UUri := mkUUri "vehicle" 8 1 3.

Definition client_uri : UUri := mkUUri "phone" 2 1 0.

Definition request_attributes : UAttributes :=
  {| id := mkUUID 1 2;
     type := UMESSAGE_TYPE_REQUEST;
     source := client_uri;
     sink := method_uri;
     commstatus := None |}.

Definition request : UMessage :=
  {| attributes := request_attributes;
     payload := Some [Byte.x01; Byte.x02] |}.

(** A server state in which [h] is registered for [method_uri]. *)
Definition serving (h : Handler) : InMemoryRpcServer.State nat Handler :=
  InMemoryRpcServer.mkState 0 (<[method_uri := Some h]> ∅) [].

End Samples.

(** Further sample collaborators: transports that fail when sending. *)
Module FailingSamples.

Import Samples.

(** A transport whose [send] raises. *)
Definition broken_send_transport : UTransport nat := {|
  get_source := transport_source;
  send _ w := (S w, Raised (OtherException "link down"));
  register_listener _ _ w := (S w, Returned (mkUStatus OK ""));
  unregister_listener _ _ w := (S w, Returned (mkUStatus OK ""))
|}.

(** A transport whose [send] returns a failure status. *)
Definition lossy_send_transport : UTransport nat := {|
  get_source := transport_source;
  send _ w := (S w, Returned (mkUStatus UNAVAILABLE "queue full"));
  register_listener _ _ w := (S w, Returned (mkUStatus OK ""));
  unregister_listener _ _ w := (S w, Returned (mkUStatus OK ""))
|}.

(** A publication. *)
Definition publication : UMessage :=
  {| attributes :=
       {| id := mkUUID 5 6;
          type := UMESSAGE_TYPE_PUBLISH;
          source := client_uri;
          sink := method_uri;
          commstatus := None |};
     payload := Some [Byte.x03] |}.

(** A history: a registration, an event outside, a registration for a
    foreign method, a publication. *)
Definition sample_history : list (InMemoryRpcServer.Op (W := nat) (Handler := Handler)) :=
  [InMemoryRpcServer.op_register (Some method_uri) (Some echo);
   InMemoryRpcServer.op_outside 9;
   InMemoryRpcServer.op_register (Some foreign_uri) (Some crashing);
   InMemoryRpcServer.op_receive publication].

End FailingSamples.

(** * Properties *)

(** ** [str.strip()] *)

Lemma lstrip_empty_iff (s : string) : lstrip s = "" <-> blank s = true.
Proof.
  induction s as [|c s IH]; simpl; [tauto|].
  destruct (isspace c); simpl; [exact IH|]. split; discriminate.
Qed.

Lemma rstrip_empty_iff (s : string) : rstrip s = "" <-> blank s = true.
Proof.
  induction s as [|c s IH]; simpl; [tauto|].
  destruct (rstrip s) eqn:E.
  - destruct (isspace c); simpl.
    + tauto.
    + split; discriminate.
  - split; [discriminate|].
    rewrite andb_true_iff. intros [_ Hb]. apply IH in Hb. discriminate.
Qed.

Lemma blank_lstrip (s : string) : blank (lstrip s) = blank s.
Proof.
  induction s as [|c s IH]; simpl; [reflexivity|].
  destruct (isspace c) eqn:E; simpl; [exact IH|]. rewrite E. reflexivity.
Qed.

(** Stripping leaves nothing exactly of the strings made of white space. *)
Lemma strip_empty_iff (s : string) : strip s = "" <-> blank s = true.
Proof.
  unfold strip. rewrite rstrip_empty_iff, blank_lstrip. tauto.
Qed.

(** ** The URI validator *)

Section ValidatorProperties.

Import UriValidator.

Variable is_empty : UriValidator.UUri -> bool.
Variable is_rpc_method : UResource -> bool.
Variable for_rpc_response : UResource.

Lemma validate_cases (uri : UriValidator.UUri) :
  validate is_empty uri =
    if is_empty uri then mkUStatus INVALID_ARGUMENT "Uri is empty."
    else if blank (name (get_u_entity uri))
         then mkUStatus INVALID_ARGUMENT "Uri is missing uSoftware Entity name."
         else ok.
Proof.
  unfold validate, failed_with_msg_and_code.
  destruct (is_empty uri); [reflexivity|].
  destruct (blank (name (get_u_entity uri))) eqn:Hb.
  - apply strip_empty_iff in Hb. rewrite Hb. reflexivity.
  - destruct (String.eqb_spec (strip (name (get_u_entity uri))) ""); [|reflexivity].
    apply strip_empty_iff in e. congruence.
Qed.

(** C9.  [validate] returns a status with code INVALID_ARGUMENT if the URI
    is empty or if its entity name, once stripped of white space, is the
    empty string; for every other URI it returns OK. *)
Theorem validate_spec (uri : UriValidator.UUri) :
  (is_empty uri = true \/ strip (name (get_u_entity uri)) = "" ->
   code (validate is_empty uri) = INVALID_ARGUMENT)
  /\ (is_empty uri = false -> strip (name (get_u_entity uri)) <> "" ->
      code (validate is_empty uri) = OK).
Proof.
  rewrite strip_empty_iff, validate_cases. split.
  - intros [-> | Hb]; [reflexivity|].
    rewrite Hb. destruct (is_empty uri); reflexivity.
  - intros -> Hb. destruct (blank _); [congruence | reflexivity].
Qed.

(** A URI that [validate_rpc_response] accepts is accepted by
    [validate_rpc_method] too: a response resource is a method resource. *)
Lemma rpc_response_is_rpc_method (uri : UriValidator.UUri) :
  code (validate_rpc_response is_empty is_rpc_method for_rpc_response uri) = OK ->
  code (validate_rpc_method is_empty is_rpc_method uri) = OK
  /\ instance (get_u_resource uri) = instance for_rpc_response.
Proof.
  unfold validate_rpc_response, validate_rpc_method.
  destruct (isFailed (validate is_empty uri)) eqn:Hfailed.
  - unfold isFailed in Hfailed. intros Hok. rewrite Hok in Hfailed. discriminate.
  - destruct (is_rpc_method (get_u_resource uri)); simpl; [|discriminate].
    case_bool_decide; simpl; [tauto | discriminate].
Qed.

(** C8, as the code has it.  When [validate] fails, [validate_rpc_method]
    returns that status unchanged.  For a URI that passes [validate] it
    returns OK if and only if [is_rpc_method] holds of the URI's resource,
    and INVALID_ARGUMENT otherwise, as for a plain topic.  A resource that
    [validate_rpc_response] accepts, a method resource carrying the
    reserved response instance, is accepted with OK. *)
Theorem validate_rpc_method_spec (uri : UriValidator.UUri) :
  let status := validate is_empty uri in
  let u_resource := get_u_resource uri in
  (isFailed status = true ->
   validate_rpc_method is_empty is_rpc_method uri = status)
  /\ (isFailed status = false ->
      (code (validate_rpc_method is_empty is_rpc_method uri) = OK
       <-> is_rpc_method u_resource = true)
      /\ (is_rpc_method u_resource = false ->
          code (validate_rpc_method is_empty is_rpc_method uri) = INVALID_ARGUMENT)
      /\ (code (validate_rpc_response is_empty is_rpc_method for_rpc_response uri)
            = OK ->
          instance u_resource = instance for_rpc_response
          /\ code (validate_rpc_method is_empty is_rpc_method uri) = OK)).
Proof.
  cbv zeta. split.
  - unfold validate_rpc_method. intros ->. reflexivity.
  - intros Hpass. split; [|split].
    + unfold validate_rpc_method. rewrite Hpass.
      destruct (is_rpc_method (get_u_resource uri)); simpl;
        split; (reflexivity || discriminate).
    + unfold validate_rpc_method. rewrite Hpass. intros ->. reflexivity.
    + intros Hresp. apply rpc_response_is_rpc_method in Hresp. tauto.
Qed.

End ValidatorProperties.

(** ** The in-memory RPC server *)

Section ServerProperties.

Import InMemoryRpcServer.
Local Open Scope list_scope.

Context {W Handler : Type}.
Context `{HEq : !EqDecision Handler, HT : !UTransport W, HR : !RequestHandler W Handler}.

Implicit Types (s : State W Handler) (H : Handler) (method_uri : UUri).
Implicit Types (request : UMessage) (e : PyException).

Lemma source_mismatch_false method_uri :
  source_mismatch method_uri = false <-> matches_source method_uri.
Proof.
  unfold source_mismatch, matches_source.
  rewrite !orb_false_iff, !negb_false_iff, String.eqb_eq, !N.eqb_eq. tauto.
Qed.

Lemma source_mismatch_true method_uri :
  source_mismatch method_uri = true <-> ~ matches_source method_uri.
Proof.
  rewrite <- source_mismatch_false. destruct (source_mismatch method_uri); split;
    congruence.
Qed.

(** Looking up a key that is absent from the dictionary and removing it
    leaves the state as it was. *)
Lemma delete_absent s method_uri :
  request_handlers s !! method_uri = None ->
  mkState (world s) (delete method_uri (request_handlers s)) (calls s) = s.
Proof.
  intros Hn. destruct s as [w d c]; simpl in *. f_equal. by apply delete_id.
Qed.

(** What [on_receive] does with a request for a method that has a handler:
    the entry is removed, the handler is invoked, and one response is sent. *)
Lemma on_receive_registered s H request :
  type (attributes request) = UMESSAGE_TYPE_REQUEST ->
  request_handlers s !! sink (attributes request) = Some (Some H) ->
  let '(w1, outcome) := handle_request H request (world s) in
  let response :=
    match outcome with
    | Returned response_payload =>
        build (response_for_request (attributes request)) response_payload
    | Raised e =>
        build (with_comm_status
                 (match e with UStatusError status => code status | _ => INTERNAL end)
                 (response_for_request (attributes request))) None
    end in
  let '(w2, sent) := send response w1 in
  on_receive request s =
    (mkState w2 (delete (sink (attributes request)) (request_handlers s))
             (calls s ++ [call_handle_request H request; call_send response]),
     match sent with Returned _ => Returned tt | Raised e => Raised e end).
Proof.
  intros Ht Hh. unfold on_receive. rewrite Ht. simpl.
  unfold bind at 1. unfold dict_pop. rewrite Hh.
  unfold bind, try_except, call_handler, transport_send, external, ret. simpl.
  destruct (handle_request H request (world s)) as [w1 [p|e]]; simpl.
  - destruct (send _ w1) as [w2 [st|e2]]; simpl; rewrite <- app_assoc; reflexivity.
  - destruct (send _ w1) as [w2 [st|e2]]; simpl; rewrite <- app_assoc; reflexivity.
Qed.


(** A message whose sink has no entry in the registry is dropped: nothing
    is invoked, nothing is sent, the state is as before. *)
Lemma on_receive_unregistered s request :
  request_handlers s !! sink (attributes request) = None ->
  on_receive request s = (s, Returned tt).
Proof.
  intros Hl. unfold on_receive.
  destruct (negb _); [reflexivity|].
  unfold bind, dict_pop, ret. simpl. rewrite Hl.
  f_equal. by apply delete_absent.
Qed.



(** [register_request_handler] on a matching method URI, case by case. *)
Lemma register_matching s method_uri H :
  matches_source method_uri ->
  register_request_handler (Some method_uri) (Some H) s =
    match request_handlers s !! method_uri with
    | Some (Some _) =>
        (s, Returned (mkUStatus ALREADY_EXISTS "Handler already registered"))
    | _ =>
        let '(w1, outcome) := register_listener ANY method_uri (world s) in
        let trace := calls s ++ [call_register_listener ANY method_uri] in
        let s1 := mkState w1 (request_handlers s) trace in
        match outcome with
        | Returned result =>
            if bool_decide (code result = OK) then
              (mkState w1 (<[method_uri := Some H]> (request_handlers s)) trace,
               Returned (mkUStatus OK ""))
            else (s1, Returned (mkUStatus (code result) (message result)))
        | Raised (UStatusError status) =>
            (s1, Returned (mkUStatus (code status) (message status)))
        | Raised e => (s1, Returned (mkUStatus INTERNAL (str e)))
        end
    end.
Proof.
  intros Hm. apply source_mismatch_false in Hm.
  unfold register_request_handler. rewrite Hm.
  unfold try_except, bind, dict_contains, dict_getitem, dict_setitem,
    update_handlers, transport_register_listener, external, raise, ret,
    from_code_message.
  simpl.
  destruct (request_handlers s !! method_uri) as [[h|]|] eqn:Hl; simpl;
    rewrite ?Hl; simpl; [reflexivity| |];
    destruct (register_listener ANY method_uri (world s)) as [w1 [result|e]];
    simpl; try (case_bool_decide; reflexivity); destruct e; reflexivity.
Qed.

(** [unregister_request_handler] on a matching method URI, case by case. *)
Lemma unregister_matching s method_uri H :
  matches_source method_uri ->
  unregister_request_handler (Some method_uri) (Some H) s =
    if bool_decide (request_handlers s !! method_uri = Some (Some H)) then
      let '(w1, outcome) := unregister_listener ANY method_uri (world s) in
      (mkState w1 (delete method_uri (request_handlers s))
               (calls s ++ [call_unregister_listener ANY method_uri]),
       outcome)
    else (s, Returned (mkUStatus NOT_FOUND "")).
Proof.
  intros Hm. apply source_mismatch_false in Hm.
  unfold unregister_request_handler. rewrite Hm.
  unfold bind, dict_get, dict_delitem, transport_unregister_listener, external, ret.
  simpl.
  destruct (request_handlers s !! method_uri) as [[h|]|] eqn:Hl; simpl;
    repeat case_bool_decide; try congruence; try reflexivity.
  rewrite Hl. simpl.
  destruct (unregister_listener ANY method_uri (world s)); reflexivity.
Qed.

(** C3, as the code has it.  For a method URI whose authority name, entity
    id or entity major version differs from the transport's source address,
    [register_request_handler] and [unregister_request_handler] each raise
    a [UStatusError] with code INVALID_ARGUMENT: the check precedes the
    [try] block, so the error is thrown, not returned as a status.  The
    registry, like the rest of the state, is left unchanged. *)
Theorem source_mismatch_raises s method_uri H :
  authority_name method_uri <> authority_name get_source
  \/ ue_id method_uri <> ue_id get_source
  \/ ue_version_major method_uri <> ue_version_major get_source ->
  let error :=
    UStatusError (mkUStatus INVALID_ARGUMENT
                    "Method URI does not match the transport source URI") in
  register_request_handler (Some method_uri) (Some H) s = (s, Raised error)
  /\ unregister_request_handler (Some method_uri) (Some H) s = (s, Raised error).
Proof.
  intros Hd.
  assert (Hm : source_mismatch method_uri = true).
  { apply source_mismatch_true. unfold matches_source. tauto. }
  unfold register_request_handler, unregister_request_handler.
  rewrite Hm. split; reflexivity.
Qed.

(** A registration that returns OK has stored the handler, on a transport
    whose errors from [register_listener] do not carry the code OK. *)
Lemma register_ok_stores s s1 method_uri H status :
  matches_source method_uri ->
  (forall w1 st, register_listener ANY method_uri (world s)
                 = (w1, Raised (UStatusError st)) -> code st <> OK) ->
  register_request_handler (Some method_uri) (Some H) s = (s1, Returned status) ->
  code status = OK ->
  request_handlers s1 !! method_uri = Some (Some H).
Proof.
  intros Hm Hcontract Hrun Hok.
  rewrite (register_matching s method_uri H Hm) in Hrun.
  destruct (request_handlers s !! method_uri) as [[h|]|];
    [injection Hrun as <- <-; discriminate | |];
    destruct (register_listener ANY method_uri (world s))
      as [w1 [result|[m|st|m]]] eqn:Hreg;
    cbv zeta in Hrun; try case_bool_decide;
    injection Hrun as <- <-; simpl in *;
    try apply lookup_insert_eq; try congruence; try discriminate;
    exfalso; by eapply Hcontract.
Qed.

(** A handler already registered for the method URI stops registration
    before the transport is reached: the call returns ALREADY_EXISTS and
    the state, and so the trace of calls, is unchanged. *)
Lemma register_existing s method_uri H0 H :
  matches_source method_uri ->
  request_handlers s !! method_uri = Some (Some H0) ->
  register_request_handler (Some method_uri) (Some H) s
    = (s, Returned (mkUStatus ALREADY_EXISTS "Handler already registered")).
Proof.
  intros Hm Hl. rewrite (register_matching s method_uri H Hm), Hl. reflexivity.
Qed.


(** Without an entry for the method URI, registration does reach the
    transport: [register_listener] is called once, with the wildcard source
    and the method URI. *)
Lemma register_absent_reaches_transport s method_uri H :
  matches_source method_uri ->
  request_handlers s !! method_uri = None ->
  calls (register_request_handler (Some method_uri) (Some H) s).1
    = calls s ++ [call_register_listener ANY method_uri].
Proof.
  intros Hm Hl. rewrite (register_matching s method_uri H Hm), Hl.
  destruct (register_listener ANY method_uri (world s)) as [w1 [result|e]];
    cbv zeta; [case_bool_decide | destruct e]; reflexivity.
Qed.




End ServerProperties.

(** ** The properties at sample inputs *)

Section Evaluation.

Import UriValidator InMemoryRpcServer Samples.
Local Open Scope list_scope.

(** A blank entity name is rejected and a proper one accepted. *)
Lemma validate_spec_witness :
  code (validate is_empty (local_uri "  " topic_resource)) = INVALID_ARGUMENT
  /\ code (validate is_empty (local_uri "body.access" topic_resource)) = OK.
Proof.
  split.
  - apply (validate_spec is_empty (local_uri "  " topic_resource)).
    right. reflexivity.
  - apply (validate_spec is_empty (local_uri "body.access" topic_resource)).
    + reflexivity.
    + vm_compute. discriminate.
Defined.

(** A method URI is accepted, a topic URI rejected, and the status of the
    empty URI passed on. *)
Lemma validate_rpc_method_spec_witness :
  code (validate_rpc_method is_empty is_rpc_method
          (local_uri "body.access" (rpc_resource "UpdateDoor"))) = OK
  /\ code (validate_rpc_method is_empty is_rpc_method
             (local_uri "body.access" topic_resource)) = INVALID_ARGUMENT
  /\ validate_rpc_method is_empty is_rpc_method empty_uri
     = validate is_empty empty_uri.
Proof.
  split; [|split].
  - destruct (validate_rpc_method_spec is_empty is_rpc_method for_rpc_response
                (local_uri "body.access" (rpc_resource "UpdateDoor")))
      as [_ Hpass].
    destruct (Hpass eq_refl) as (Hmethod & _ & _).
    apply Hmethod. reflexivity.
  - destruct (validate_rpc_method_spec is_empty is_rpc_method for_rpc_response
                (local_uri "body.access" topic_resource))
      as [_ Hpass].
    destruct (Hpass eq_refl) as (_ & Htopic & _).
    apply Htopic. reflexivity.
  - destruct (validate_rpc_method_spec is_empty is_rpc_method for_rpc_response
                empty_uri)
      as [Hfail _].
    apply Hfail. reflexivity.
Defined.

(** Against C8 as stated: the URI of the response resource passes
    [validate], its resource carries the reserved response instance (and
    [validate_rpc_response] accepts it), yet [validate_rpc_method] returns
    OK, not INVALID_ARGUMENT. *)
Lemma validate_rpc_method_accepts_response :
  let uri := local_uri "body.access" for_rpc_response in
  isFailed (validate is_empty uri) = false
  /\ instance (get_u_resource uri) = instance for_rpc_response
  /\ code (validate_rpc_response is_empty is_rpc_method for_rpc_response uri) = OK
  /\ code (validate_rpc_method is_empty is_rpc_method uri) = OK
  /\ code (validate_rpc_method is_empty is_rpc_method uri) <> INVALID_ARGUMENT.
Proof. repeat split. discriminate. Qed.




(** Against C3 as stated: for a method URI of another entity both calls
    raise; neither returns a status. *)
Lemma source_mismatch_is_raised :
  ue_id foreign_uri <> ue_id (get_source (UTransport := ok_transport))
  /\ (register_request_handler (HT := ok_transport)
        (Some foreign_uri) (Some echo) (init 0)).2
     = Raised (from_code_message INVALID_ARGUMENT
                 "Method URI does not match the transport source URI")
  /\ (unregister_request_handler (HT := ok_transport)
        (Some foreign_uri) (Some echo) (init 0)).2
     = Raised (from_code_message INVALID_ARGUMENT
                 "Method URI does not match the transport source URI")
  /\ ~ (exists status,
          (register_request_handler (HT := ok_transport)
             (Some foreign_uri) (Some echo) (init 0)).2 = Returned status)
  /\ ~ (exists status,
          (unregister_request_handler (HT := ok_transport)
             (Some foreign_uri) (Some echo) (init 0)).2 = Returned status).
Proof.
  repeat split; try discriminate; intros [status Hs]; discriminate Hs.
Qed.

Lemma source_mismatch_raises_witness :
  register_request_handler (HT := ok_transport)
    (Some foreign_uri) (Some echo) (serving echo)
  = (serving echo,
     Raised (from_code_message INVALID_ARGUMENT
               "Method URI does not match the transport source URI"))
  /\ unregister_request_handler (HT := ok_transport)
       (Some foreign_uri) (Some echo) (serving echo)
     = (serving echo,
        Raised (from_code_message INVALID_ARGUMENT
                  "Method URI does not match the transport source URI")).
Proof.
  apply (source_mismatch_raises (HT := ok_transport)
           (serving echo) foreign_uri echo).
  right. left. vm_compute. discriminate.
Defined.





End Evaluation.

(** * Further properties of the server *)

Section ServerBehaviour.

Import InMemoryRpcServer.
Local Open Scope list_scope.

Context {W Handler : Type}.
Context `{HEq : !EqDecision Handler, HT : !UTransport W, HR : !RequestHandler W Handler}.

Implicit Types (s : State W Handler) (H : Handler) (method_uri key : UUri).
Implicit Types (request : UMessage) (e : PyException).

(** [on_receive] on a request with a registered handler, with the outcomes
    of the two calls named. *)
Lemma on_receive_run s H request w1 outcome w2 sent :
  type (attributes request) = UMESSAGE_TYPE_REQUEST ->
  request_handlers s !! sink (attributes request) = Some (Some H) ->
  handle_request H request (world s) = (w1, outcome) ->
  send (response_of request outcome) w1 = (w2, sent) ->
  on_receive request s =
    (mkState w2 (delete (sink (attributes request)) (request_handlers s))
             (calls s ++ [call_handle_request H request;
                          call_send (response_of request outcome)]),
     match sent with Returned _ => Returned tt | Raised e => Raised e end).
Proof.
  intros Ht Hl Hh Hs.
  pose proof (on_receive_registered s H request Ht Hl) as Hrun.
  rewrite Hh in Hrun. cbv zeta in Hrun. unfold response_of in Hs.
  rewrite Hs in Hrun. exact Hrun.
Qed.

(** X1.  The dispatch callback does nothing at all for a message that is
    not a REQUEST, and nothing for a message whose sink has no entry in the
    registry: no handler is invoked, nothing is sent, the registry and the
    world are as before, and the callback returns normally. *)
Theorem on_receive_silent s request :
  type (attributes request) <> UMESSAGE_TYPE_REQUEST
  \/ request_handlers s !! sink (attributes request) = None ->
  on_receive request s = (s, Returned tt).
Proof.
  intros [Ht | Hl].
  - unfold on_receive. rewrite bool_decide_eq_false_2 by exact Ht. reflexivity.
  - by apply on_receive_unregistered.
Qed.

(** The effect of [on_receive] on the registry, for every message and
    every state. *)
Lemma on_receive_effect s request :
  request_handlers (on_receive request s).1 =
    if bool_decide (type (attributes request) = UMESSAGE_TYPE_REQUEST)
    then delete (sink (attributes request)) (request_handlers s)
    else request_handlers s.
Proof.
  case_bool_decide as Ht.
  - destruct (request_handlers s !! sink (attributes request)) as [[h|]|] eqn:Hl.
    + destruct (handle_request h request (world s)) as [w1 outcome] eqn:Hh.
      destruct (send (response_of request outcome) w1) as [w2 sent] eqn:Hs.
      rewrite (on_receive_run s h request w1 outcome w2 sent Ht Hl Hh Hs).
      reflexivity.
    + unfold on_receive. rewrite Ht. simpl.
      unfold bind, dict_pop, ret. simpl. rewrite Hl. reflexivity.
    + rewrite on_receive_unregistered by exact Hl. simpl.
      symmetry. by apply delete_id.
  - unfold on_receive. rewrite bool_decide_eq_false_2 by exact Ht. reflexivity.
Qed.



(** A registration that the transport accepts. *)
Lemma register_accepted s method_uri H w1 result :
  matches_source method_uri ->
  (forall h, request_handlers s !! method_uri <> Some (Some h)) ->
  register_listener ANY method_uri (world s) = (w1, Returned result) ->
  code result = OK ->
  register_request_handler (Some method_uri) (Some H) s
    = (mkState w1 (<[method_uri := Some H]> (request_handlers s))
               (calls s ++ [call_register_listener ANY method_uri]),
       Returned (mkUStatus OK "")).
Proof.
  intros Hm Hfree Hreg Hok.
  rewrite (register_matching s method_uri H Hm), Hreg. cbv zeta.
  rewrite bool_decide_eq_true_2 by exact Hok.
  destruct (request_handlers s !! method_uri) as [[h|]|] eqn:Hl;
    [by destruct (Hfree h) | reflexivity | reflexivity].
Qed.


(** The effect of the registration methods on the registry, for all
    arguments and every state. *)
Lemma register_effect s (method_uri : option UUri) (handler : option Handler) :
  let s1 := (register_request_handler method_uri handler s).1 in
  request_handlers s1 = request_handlers s
  \/ exists M H, matches_source M
       /\ request_handlers s1 = <[M := Some H]> (request_handlers s).
Proof.
  cbv zeta. destruct method_uri as [u|], handler as [h|]; try by left.
  destruct (source_mismatch u) eqn:Hm.
  { unfold register_request_handler. rewrite Hm. by left. }
  apply source_mismatch_false in Hm.
  rewrite (register_matching s u h Hm).
  destruct (request_handlers s !! u) as [[h0|]|]; [by left | |];
    destruct (register_listener ANY u (world s)) as [w1 [result|e]];
    cbv zeta; try case_bool_decide; try destruct e; simpl;
    try (left; reflexivity); right; exists u, h; by split.
Qed.

Lemma unregister_effect s (method_uri : option UUri) (handler : option Handler) :
  let s1 := (unregister_request_handler method_uri handler s).1 in
  request_handlers s1 = request_handlers s
  \/ exists M, request_handlers s1 = delete M (request_handlers s).
Proof.
  cbv zeta. destruct method_uri as [u|], handler as [h|]; try by left.
  destruct (source_mismatch u) eqn:Hm.
  { unfold unregister_request_handler. rewrite Hm. by left. }
  apply source_mismatch_false in Hm.
  rewrite (unregister_matching s u h Hm).
  case_bool_decide; [|by left].
  destruct (unregister_listener ANY u (world s)) as [w1 outcome]. simpl.
  right. by exists u.
Qed.


(** [registry_invariant] holds of a new server and is kept by every step. *)
Lemma init_registry_invariant (w : W) :
  registry_invariant (init (Handler := Handler) w).
Proof. intros key v. unfold init. simpl. rewrite lookup_empty. discriminate. Qed.

Lemma step_registry_invariant s (o : Op) :
  registry_invariant s -> registry_invariant (step s o).
Proof.
  intros Hs key v. destruct o as [u h | u h | request | w]; simpl.
  - destruct (register_effect s u h) as [-> | (M & H & Hm & ->)]; [apply Hs|].
    destruct (decide (M = key)) as [->|Hne].
    + rewrite lookup_insert_eq. intros [= <-]. eauto.
    + rewrite lookup_insert_ne by exact Hne. apply Hs.
  - destruct (unregister_effect s u h) as [-> | (M & ->)]; [apply Hs|].
    intros Hl. apply lookup_delete_Some in Hl. apply Hs. tauto.
  - rewrite (on_receive_effect s request).
    case_bool_decide; [|apply Hs].
    intros Hl. apply lookup_delete_Some in Hl. apply Hs. tauto.
  - apply Hs.
Qed.

Lemma run_registry_invariant (ops : list Op) s :
  registry_invariant s -> registry_invariant (run ops s).
Proof.
  revert s. induction ops as [|o ops IH]; intros s Hs; [exact Hs|].
  simpl. apply IH. by apply step_registry_invariant.
Qed.


End ServerBehaviour.

(** * Further properties of the URI validator *)

Section ValidatorBehaviour.

Import UriValidator.

Variable is_empty : UriValidator.UUri -> bool.
Variable is_rpc_method : UResource -> bool.
Variable for_rpc_response : UResource.

(** X7.  [validate_rpc_response] passes on the status of a failed
    [validate] unchanged.  For a URI that passes [validate] it returns OK
    if and only if the resource is a method resource whose instance is the
    instance of [for_rpc_response()]; for every other such URI it returns
    INVALID_ARGUMENT with the message [Invalid RPC response type.]. *)
Theorem validate_rpc_response_spec (uri : UriValidator.UUri) :
  let status := validate is_empty uri in
  let u_resource := get_u_resource uri in
  let response := validate_rpc_response is_empty is_rpc_method for_rpc_response uri in
  (isFailed status = true -> response = status)
  /\ (isFailed status = false ->
      (code response = OK
       <-> is_rpc_method u_resource = true
           /\ instance u_resource = instance for_rpc_response)
      /\ (code response <> OK ->
          response = mkUStatus INVALID_ARGUMENT "Invalid RPC response type.")).
Proof.
  cbv zeta. unfold validate_rpc_response. split; [intros ->; reflexivity|].
  intros ->.
  destruct (is_rpc_method (get_u_resource uri)); simpl.
  - case_bool_decide as Hi; simpl.
    + split; [tauto | intros Hc; by destruct Hc].
    + split; [|reflexivity]. split; [discriminate | tauto].
  - split; [|reflexivity]. split; [discriminate | intros [? _]; discriminate].
Qed.

End ValidatorBehaviour.

(** ** The further properties at sample inputs *)

Section BehaviourEvaluation.

Import UriValidator InMemoryRpcServer Samples FailingSamples.
Local Open Scope list_scope.

(** A publication is ignored even though a handler is registered for its
    sink; a request is dropped when nothing is registered. *)
Lemma on_receive_silent_witness :
  on_receive (HT := ok_transport) publication (serving echo)
    = (serving echo, Returned tt)
  /\ on_receive (HT := ok_transport) request (init 0) = (init 0, Returned tt).
Proof.
  split.
  - apply (on_receive_silent (HT := ok_transport) (serving echo) publication).
    left. vm_compute. discriminate.
  - apply (on_receive_silent (HT := ok_transport) (init 0) request).
    right. reflexivity.
Defined.





Lemma validate_rpc_response_spec_witness :
  code (validate_rpc_response is_empty is_rpc_method for_rpc_response
          (local_uri "body.access" for_rpc_response)) = OK
  /\ validate_rpc_response is_empty is_rpc_method for_rpc_response
       (local_uri "body.access" (rpc_resource "UpdateDoor"))
     = mkUStatus INVALID_ARGUMENT "Invalid RPC response type."
  /\ validate_rpc_response is_empty is_rpc_method for_rpc_response empty_uri
     = validate is_empty empty_uri.
Proof.
  split; [|split].
  - destruct (validate_rpc_response_spec is_empty is_rpc_method for_rpc_response
                (local_uri "body.access" for_rpc_response)) as [_ Hpass].
    destruct (Hpass eq_refl) as [Hiff _]. apply Hiff. split; reflexivity.
  - destruct (validate_rpc_response_spec is_empty is_rpc_method for_rpc_response
                (local_uri "body.access" (rpc_resource "UpdateDoor")))
      as [_ Hpass].
    destruct (Hpass eq_refl) as [_ Hno]. apply Hno. vm_compute. discriminate.
  - destruct (validate_rpc_response_spec is_empty is_rpc_method for_rpc_response
                empty_uri) as [Hfail _].
    apply Hfail. reflexivity.
Defined.

End BehaviourEvaluation.
